(** * fetch_github_standards.py: a shallow embedding

    The script configures the [logging] module at import time, then, run as
    a program, creates [logs/], fetches one fixed URL with [requests.get],
    prints a 500-character preview of the body and logs what it did.

    The embedding threads an explicit [world] (file system entry for
    [logs], the log file, the console, the network) through a small
    state-and-exception monad: a Python statement that raises leaves the
    side effects it had already performed in place, so the state survives
    an exception.  A Python [str] is a [string]; each [ascii] stands for one
    character of it, so the texts of the model are over an alphabet of 256
    characters.  Time stamps of log lines are left out.

    The console of the world records the texts the script hands to
    [print].  Standard output is, from line 18 on, the stream wrapper of
    colorama; what the wrapper passes on to the real stream is told
    by [colorama.print_through] and [colorama.terminal].

    The specification leaves a failing log sink out of its scope.  The
    world still carries a script of refused writes to standard output, so
    that what the [try] of [fetch_standards] does with such a failure can
    be stated; the properties of the normal path assume [healthy], a
    standard output that accepts every write. *)

From Stdlib Require Import String Ascii List ZArith Bool Lia.
From Stdlib Require Import DecimalString.
Import ListNotations.

Local Open Scope string_scope.

(** ** Exceptions and results *)

(** An instance of (a subclass of) [Exception]: its class name and what
    [str(e)] gives.  Signals that derive from [BaseException] only
    (KeyboardInterrupt, SystemExit) are not raised by any statement of the
    script and are outside the model. *)
Record exn : Type := mk_exn { exn_class : string; exn_str : string }.

Inductive result (A : Type) : Type :=
| Returned (a : A)
| Raised (e : exn).

Arguments Returned {A} a.
Arguments Raised {A} e.

(** ** The world the script runs in *)

(** What the path [logs] is in the working directory. *)
Inductive fs_entry : Type := Absent | IsDir | IsFile.

(** The severities of the [logging] module. *)
Inductive Level : Type := DEBUG | INFO | WARNING | ERROR | CRITICAL.

Definition levelno (l : Level) : Z :=
  match l with
  | DEBUG => 10 | INFO => 20 | WARNING => 30 | ERROR => 40 | CRITICAL => 50
  end.

Definition levelname (l : Level) : string :=
  match l with
  | DEBUG => "DEBUG" | INFO => "INFO" | WARNING => "WARNING"
  | ERROR => "ERROR" | CRITICAL => "CRITICAL"
  end.

(** One line of [logs/fetch_github_standards.log], format
    ["%(asctime)s %(levelname)s %(message)s"] without the time stamp. *)
Record log_record : Type := mk_record { rec_level : Level; rec_message : string }.

Definition format_record (r : log_record) : string :=
  levelname (rec_level r) ++ " " ++ rec_message r.

(** One call of [print]: the colored line of [log_message], written as
    [f"{color}--> {message}"], or a plain text. *)
Inductive console_event : Type :=
| ColorLine (color message : string)
| PlainLine (text : string).

Definition render (ev : console_event) : string :=
  match ev with
  | ColorLine color message => color ++ "--> " ++ message
  | PlainLine text => text
  end.

(** What [requests.get] hands back: the fields of the response the script
    and [raise_for_status] read. *)
Record Response : Type := mk_response {
  status_code : Z;
  reason : string;
  response_url : string;
  text : string
}.

Inductive http_outcome : Type :=
| Responded (r : Response)
| Failed (e : exn).

(** [console] holds the prints of the script, as handed to standard
    output.  [stdout_faults] scripts the writes to standard output that
    are still to come: [Some e] makes the next [print] raise [e] (closed or
    broken stream), [None] lets it through; past the end of the script
    every write succeeds.  [network] is the remote side, a fixed function
    of the URL: the final answer of a call of [requests.get], after
    whatever redirects the library follows.  [requests_sent] lists the URLs
    [requests.get] was called with.  Records that the libraries below
    [requests] may write to the log of their own accord are left out. *)
Record world : Type := mk_world {
  logs_entry : fs_entry;
  log_file : list log_record;
  console : list console_event;
  stdout_faults : list (option exn);
  network : string -> http_outcome;
  requests_sent : list string
}.

Definition set_logs (e : fs_entry) (w : world) : world :=
  mk_world e (log_file w) (console w) (stdout_faults w) (network w)
           (requests_sent w).

Definition emit_record (r : log_record) (w : world) : world :=
  mk_world (logs_entry w) (log_file w ++ [r]) (console w) (stdout_faults w)
           (network w) (requests_sent w).

Definition emit_console (ev : console_event) (w : world) : world :=
  mk_world (logs_entry w) (log_file w) (console w ++ [ev]) (stdout_faults w)
           (network w) (requests_sent w).

Definition set_faults (fs : list (option exn)) (w : world) : world :=
  mk_world (logs_entry w) (log_file w) (console w) fs (network w)
           (requests_sent w).

Definition note_request (url : string) (w : world) : world :=
  mk_world (logs_entry w) (log_file w) (console w) (stdout_faults w)
           (network w) (requests_sent w ++ [url]).

(** Standard output accepts every write to come. *)
Definition healthy (w : world) : Prop := stdout_faults w = [].

(** ** The monad of statements *)

Definition M (A : Type) : Type := world -> result A * world.

Definition ret {A : Type} (a : A) : M A := fun w => (Returned a, w).

Definition raise {A : Type} (e : exn) : M A := fun w => (Raised e, w).

Definition bind {A B : Type} (m : M A) (k : A -> M B) : M B :=
  fun w =>
    match m w with
    | (Returned a, w') => k a w'
    | (Raised e, w') => (Raised e, w')
    end.

(** [try: body except Exception as e: handler e]. *)
Definition try_except {A : Type} (body : M A) (handler : exn -> M A) : M A :=
  fun w =>
    match body w with
    | (Returned a, w') => (Returned a, w')
    | (Raised e, w') => handler e w'
    end.

Declare Scope py_scope.
Delimit Scope py_scope with py.
Notation "x <- m ;; k" := (bind m (fun x => k))
  (at level 61, m at next level, right associativity) : py_scope.
Notation "m ;; k" := (bind m (fun _ => k))
  (at level 61, right associativity) : py_scope.
Local Open Scope py_scope.

(** ** Python built-ins *)

Module Py.

(** [str.lower] on the characters A..Z, which is what it does to a text
    of ASCII characters such as the names of the severities; cased
    letters beyond ASCII are outside the model. *)
Definition lower_char (c : ascii) : ascii :=
  let n := nat_of_ascii c in
  if (65 <=? n)%nat && (n <=? 90)%nat then ascii_of_nat (n + 32) else c.

Fixpoint lower (s : string) : string :=
  match s with
  | EmptyString => EmptyString
  | String c s' => String (lower_char c) (lower s')
  end.

(** [s[:n]]. *)
Definition slice_to (n : nat) (s : string) : string := substring 0 n s.

(** Truth value of an [Optional[str]]: [None] and the empty string are
    false. *)
Definition truthy (content : option string) : bool :=
  match content with
  | None => false
  | Some EmptyString => false
  | Some (String _ _) => true
  end.

(** [str(n)] for an [int]. *)
Definition str_of_int (n : Z) : string := NilZero.string_of_int (Z.to_int n).

(** [print(x)]: the text is handed to standard output, which takes it or
    raises.  The console records the text as handed over; see
    [colorama.print_through] for what the wrapper makes of it. *)
Definition print (ev : console_event) : M unit :=
  fun w =>
    match stdout_faults w with
    | [] => (Returned tt, emit_console ev w)
    | None :: rest => (Returned tt, emit_console ev (set_faults rest w))
    | Some e :: rest => (Raised e, set_faults rest w)
    end.

End Py.

(** ** colorama *)

Module Fore.
Definition ESC : string := String (ascii_of_nat 27) "[".
Definition GREEN : string := ESC ++ "32m".
Definition YELLOW : string := ESC ++ "33m".
Definition RED : string := ESC ++ "31m".
Definition WHITE : string := ESC ++ "37m".
End Fore.

(** The stream wrapper [init(autoreset=True)] puts in the place of
    [sys.stdout] (line 18), on a POSIX system, where nothing is converted
    to console calls.  The wrapper is given every text the script prints;
    [strip] is fixed when the wrapper is made: it holds when standard
    output is not a terminal. *)
Module colorama.

(** [Style.RESET_ALL]. *)
Definition RESET_ALL : string := Fore.ESC ++ "0m".

Definition SOH : ascii := ascii_of_nat 1.
Definition STX : ascii := ascii_of_nat 2.
Definition ESC : ascii := ascii_of_nat 27.
Definition LF : string := String (ascii_of_nat 10) EmptyString.

(** The two character classes of the pattern [ANSI_CSI_RE]: a parameter
    character is a digit or a semicolon, the final character a letter
    a-z or A-Z. *)
Definition is_param (c : ascii) : bool :=
  let n := nat_of_ascii c in
  ((48 <=? n)%nat && (n <=? 57)%nat) || (n =? 59)%nat.

Definition is_letter (c : ascii) : bool :=
  let n := nat_of_ascii c in
  ((65 <=? n)%nat && (n <=? 90)%nat) || ((97 <=? n)%nat && (n <=? 122)%nat).

(** The tail of the pattern: any number of parameter characters, one
    letter, and [\002] if it comes next.  The number of characters
    matched at the head of [s], if the tail matches there. *)
Fixpoint params_letter (s : string) : option nat :=
  match s with
  | EmptyString => None
  | String c rest =>
      if is_param c then option_map S (params_letter rest)
      else if is_letter c then
        match rest with
        | String c' _ => if (c' =? STX)%char then Some 2 else Some 1
        | EmptyString => Some 1
        end
      else None
  end.

(** The same for [ESC], an opening square bracket and the tail. *)
Definition csi_body (s : string) : option nat :=
  match s with
  | String e (String b rest) =>
      if (e =? ESC)%char && (b =? "[")%char
      then option_map (fun n => 2 + n) (params_letter rest)
      else None
  | _ => None
  end.

(** The same for the whole of [ANSI_CSI_RE]: [\001] if it comes first,
    then the above. *)
Definition csi_match (s : string) : option nat :=
  match s with
  | String c rest =>
      if (c =? SOH)%char then option_map S (csi_body rest) else csi_body s
  | EmptyString => None
  end.

(** [write_and_convert] over the matches [finditer] yields, left to right
    and without overlap: the text between the matches is written, the
    matches are not.  [skip] counts the characters of the current match
    that are still to be passed over. *)
Fixpoint strip_csi (skip : nat) (s : string) : string :=
  match s with
  | EmptyString => EmptyString
  | String c rest =>
      match skip with
      | S k => strip_csi k rest
      | O =>
          match csi_match (String c rest) with
          | Some (S k) => strip_csi k rest
          | _ => String c (strip_csi 0 rest)
          end
      end
  end.

(** The text holds [ESC] followed by a closing square bracket, the
    introducer of an operating-system command and the only place where
    [ANSI_OSC_RE] can match. *)
Fixpoint has_osc (s : string) : bool :=
  match s with
  | EmptyString => false
  | String c rest =>
      match rest with
      | String d _ => ((c =? ESC)%char && (d =? "]")%char) || has_osc rest
      | EmptyString => false
      end
  end.

(** The text holds the character [ESC]. *)
Fixpoint has_esc (s : string) : bool :=
  match s with
  | EmptyString => false
  | String c rest => (c =? ESC)%char || has_esc rest
  end.

(** [AnsiToWin32.write(text)] with [autoreset]: what the real stream
    receives.  When stripping, the sequences of [ANSI_CSI_RE] are left
    out; otherwise the text goes through as it is and [RESET_ALL] is
    written after it.  What [convert_osc] does to operating-system
    commands is outside the model: a text with their introducer gets
    [None]. *)
Definition write (strip : bool) (text : string) : option string :=
  if strip then
    if has_osc text then None else Some (strip_csi 0 text)
  else Some (text ++ RESET_ALL).

(** [print(text)] on the wrapper: the text and the line end are two
    writes. *)
Definition print_through (strip : bool) (text : string) : option string :=
  match write strip text, write strip LF with
  | Some a, Some b => Some (a ++ b)
  | _, _ => None
  end.

(** What the real stream has received once the wrapper has been given
    the prints of a console. *)
Fixpoint terminal (strip : bool) (c : list console_event) : option string :=
  match c with
  | [] => Some EmptyString
  | ev :: c' =>
      match print_through strip (render ev), terminal strip c' with
      | Some a, Some b => Some (a ++ b)
      | _, _ => None
      end
  end.

End colorama.

(** ** os *)

Module os.

(** [os.makedirs("logs", exist_ok=True)]: creates the directory, and
    forgives the failure of [mkdir] only when the path is a directory. *)
Definition makedirs_exist_ok : M unit :=
  fun w =>
    match logs_entry w with
    | Absent => (Returned tt, set_logs IsDir w)
    | IsDir => (Returned tt, w)
    | IsFile =>
        (Raised (mk_exn "FileExistsError"
                        "[Errno 17] File exists: 'logs'"), w)
    end.

End os.

(** ** logging *)

Module logging.

Definition log_path : string := "logs/fetch_github_standards.log".

(** [level=logging.INFO] of [basicConfig]. *)
Definition root_level : Z := levelno INFO.

(** [logging.basicConfig(filename=..., level=logging.INFO, ...)]: the
    file handler opens the file for appending at once, which needs the
    directory [logs] to be there.  The text of the exception names the
    file by the path the script gives; the handler itself opens, and
    names, the absolute path.  Permissions are not modelled. *)
Definition basicConfig : M unit :=
  fun w =>
    match logs_entry w with
    | IsDir => (Returned tt, w)
    | Absent =>
        (Raised (mk_exn "FileNotFoundError"
                        ("[Errno 2] No such file or directory: '"
                         ++ log_path ++ "'")), w)
    | IsFile =>
        (Raised (mk_exn "NotADirectoryError"
                        ("[Errno 20] Not a directory: '"
                         ++ log_path ++ "'")), w)
    end.

(** The module-level severity functions [logging.debug], [logging.info],
    ...: the record reaches the file when its level is not below the
    level of the root logger.  The handler reports its own write errors
    and does not raise them. *)
Definition emit (l : Level) (message : string) : M unit :=
  fun w =>
    if (root_level <=? levelno l)%Z
    then (Returned tt, emit_record (mk_record l message) w)
    else (Returned tt, w).

(** Which severity function a lower-case attribute name denotes, with
    the aliases [warn] and [fatal].  The other attributes of the module
    ([exception], [log], [disable], ...) are no severities of their own
    and the script never asks for them; they get no entry here. *)
Definition severity_function (name : string) : option Level :=
  if name =? "debug" then Some DEBUG
  else if name =? "info" then Some INFO
  else if name =? "warning" then Some WARNING
  else if name =? "warn" then Some WARNING
  else if name =? "error" then Some ERROR
  else if name =? "critical" then Some CRITICAL
  else if name =? "fatal" then Some CRITICAL
  else None.

(** [getattr(logging, name)(message)].  For a name that is no attribute
    of the module, such as [foo], the lookup raises [AttributeError].  The
    attributes of the module that are not severity functions are outside
    the model, which treats their names like [foo]. *)
Definition call_attr (name message : string) : M unit :=
  match severity_function name with
  | Some l => emit l message
  | None =>
      raise (mk_exn "AttributeError"
                    ("module 'logging' has no attribute '" ++ name ++ "'"))
  end.

End logging.

(** ** requests *)

Module requests.

(** [requests.get(url)]: the call is noted; the network answers with a
    response or the call raises. *)
Definition get (url : string) : M Response :=
  fun w =>
    match network w url with
    | Responded r => (Returned r, note_request url w)
    | Failed e => (Raised e, note_request url w)
    end.

(** The message [Response.raise_for_status] builds: empty unless the
    status is 4xx or 5xx. *)
Definition http_error_msg (r : Response) : option string :=
  if ((400 <=? status_code r) && (status_code r <? 500))%Z then
    Some (Py.str_of_int (status_code r) ++ " Client Error: " ++ reason r
          ++ " for url: " ++ response_url r)
  else if ((500 <=? status_code r) && (status_code r <? 600))%Z then
    Some (Py.str_of_int (status_code r) ++ " Server Error: " ++ reason r
          ++ " for url: " ++ response_url r)
  else None.

Definition raise_for_status (r : Response) : M unit :=
  match http_error_msg r with
  | Some msg => raise (mk_exn "HTTPError" msg)
  | None => ret tt
  end.

End requests.

(** ** The script *)

(** Lines 29-30: [colors.get(level, Fore.WHITE)] over the dictionary
    [{"INFO": GREEN, "WARNING": YELLOW, "ERROR": RED}]. *)
Definition colors_get (level : string) : string :=
  if level =? "INFO" then Fore.GREEN
  else if level =? "WARNING" then Fore.YELLOW
  else if level =? "ERROR" then Fore.RED
  else Fore.WHITE.

(** Lines 27-31: [log_message(message, level)]; the default of [level] is
    ["INFO"].  The colored line is printed first, then the severity
    function is looked up on [logging] and called. *)
Definition log_message (message level : string) : M unit :=
  Py.print (ColorLine (colors_get level) message) ;;
  logging.call_attr (Py.lower level) message.

Definition success_message : string := "Successfully fetched standards".

Definition error_message (e : exn) : string :=
  "Error fetching standards: " ++ exn_str e
  ++ ". Ensure the URL is correct and public.".

(** Lines 33-42: the request, the status check, the success record and
    the [return] all sit inside the [try]. *)
Definition fetch_standards (url : string) : M (option string) :=
  try_except
    (response <- requests.get url ;;
     requests.raise_for_status response ;;
     log_message success_message "INFO" ;;
     ret (Some (text response)))
    (fun e =>
       log_message (error_message e) "ERROR" ;;
       ret None).

Definition url : string :=
  "https://raw.githubusercontent.com/Projectbits/code_std/main/Coding%20Standards.md".

Definition preview_header : string := "Standards content (first 500 chars):".

(** Lines 49-51: [if content:] with its two statements.  The test is the
    truth value of [content], so the branch is taken for a non-empty
    string only. *)
Definition show_content (content : option string) : M unit :=
  if Py.truthy content then
    log_message preview_header "INFO" ;;
    Py.print (PlainLine (Py.slice_to 500 (match content with
                                          | Some s => s
                                          | None => EmptyString
                                          end)))
  else ret tt.

(** Lines 44-52: the body of [if __name__ == "__main__":]. *)
Definition main : M unit :=
  os.makedirs_exist_ok ;;
  log_message "Script started" "INFO" ;;
  content <- fetch_standards url ;;
  show_content content ;;
  log_message "Script completed" "INFO".

(** The module run as a program: the import-time statements, then
    [main].  Of the former, [init(autoreset=True)] puts the wrapper of
    [colorama] in the place of standard output, so that every print of the
    console below is a print on the wrapper, and [basicConfig] is the one
    that can fail. *)
Definition script : M unit :=
  logging.basicConfig ;;
  main.

(** Exit status of the interpreter: 0 when the module ran to its end, 1
    when an exception reached the top level. *)
Definition exit_status {A : Type} (r : result A) : Z :=
  match r with
  | Returned _ => 0
  | Raised _ => 1
  end.

(** The characters the plain [print] of the preview put on the console. *)
Fixpoint preview_printed (c : list console_event) : string :=
  match c with
  | [] => EmptyString
  | PlainLine t :: c' => t ++ preview_printed c'
  | ColorLine _ _ :: c' => preview_printed c'
  end.

(** ** Vocabulary of the statements *)

(** What a call of [log_message] that goes through leaves behind: the
    colored line on the console and, at or above the level of the root
    logger, the record in the file. *)
Definition logged (l : Level) (message level : string) (w : world) : world :=
  let w1 := emit_console (ColorLine (colors_get level) message) w in
  if (logging.root_level <=? levelno l)%Z
  then emit_record (mk_record l message) w1
  else w1.

(** The request for [url] raises [e]: [requests.get] itself fails, or the
    response carries a 4xx or 5xx status and [raise_for_status] turns it
    into an [HTTPError]. *)
Inductive request_raises (w : world) (url : string) : exn -> Prop :=
| get_raises (e : exn) :
    network w url = Failed e -> request_raises w url e
| status_raises (r : Response) (msg : string) :
    network w url = Responded r ->
    requests.http_error_msg r = Some msg ->
    request_raises w url (mk_exn "HTTPError" msg).

(** What [show_content] leaves behind when every write goes through. *)
Definition after_show (content : option string) (w : world) : world :=
  match content with
  | Some (String c s) =>
      emit_console (PlainLine (Py.slice_to 500 (String c s)))
                   (logged INFO preview_header "INFO" w)
  | _ => w
  end.

(** The site of the run: the entry [logs] and the remote side. *)
Definition same_site (w w' : world) : Prop :=
  logs_entry w' = logs_entry w /\ network w' = network w.

(** A statement that leaves the site alone, however it ends. *)
Definition keeps_site {A : Type} (m : M A) : Prop :=
  forall w, same_site w (snd (m w)).

(** A statement that leaves the component [f] of the world alone, however
    it ends. *)
Definition keeps {X A : Type} (f : world -> X) (m : M A) : Prop :=
  forall w, f (snd (m w)) = f w.

(** The four ways: a body with its INFO record; the absence value with
    an ERROR record, for the exception of the request or for the one of
    the refused success line; or the exception of a refused write of the
    handler, with nothing logged. *)
Inductive fetch_ending (u : string) (w : world) :
  result (option string) -> list log_record -> Prop :=
| ends_with_body (r : Response) :
    network w u = Responded r ->
    requests.http_error_msg r = None ->
    hd None (stdout_faults w) = None ->
    fetch_ending u w (Returned (Some (text r)))
      [mk_record INFO success_message]
| ends_absent_request (e : exn) :
    request_raises w u e ->
    hd None (stdout_faults w) = None ->
    fetch_ending u w (Returned None) [mk_record ERROR (error_message e)]
| ends_absent_logging (r : Response) (e : exn) rest :
    network w u = Responded r ->
    requests.http_error_msg r = None ->
    stdout_faults w = Some e :: rest ->
    hd None rest = None ->
    fetch_ending u w (Returned None) [mk_record ERROR (error_message e)]
| ends_raising (e : exn) :
    In (Some e) (stdout_faults w) ->
    fetch_ending u w (Raised e) [].


(** ** Scenarios *)

(** A process started in a directory where [logs] is [entry], on a
    terminal with nothing on it, an empty log file and a remote side that
    gives every URL the same [answer]. *)
Definition start (entry : fs_entry) (faults : list (option exn))
    (answer : http_outcome) : world :=
  mk_world entry [] [] faults (fun _ => answer) [].

Fixpoint filler (n : nat) : string :=
  match n with
  | O => EmptyString
  | S n' => String "."%char (filler n')
  end.

(** A body of 600 characters. *)
Definition standards_body : string :=
  "# Coding Standards" ++ String (ascii_of_nat 10) (filler 581).

Definition ok_response (body : string) : Response :=
  mk_response 200 "OK" url body.

Definition not_found : Response :=
  mk_response 404 "Not Found" url "404: Not Found".

Definition dns_failure : exn :=
  mk_exn "ConnectionError" "Failed to resolve 'raw.githubusercontent.com'".

Definition closed_stdout : exn :=
  mk_exn "ValueError" "I/O operation on closed file.".

(** A body that colors the word it carries: [ESC[31m], "red", [ESC[0m]. *)
Definition ansi_body : string := Fore.RED ++ "red" ++ colorama.RESET_ALL.

Create HintDb world.

(** * Properties *)

(** ** Slices *)

Lemma slice_to_length (n : nat) (s : string) :
  String.length (Py.slice_to n s) = Nat.min (String.length s) n.
Proof.
  unfold Py.slice_to. revert s.
  induction n as [|n IH]; intros [|c s]; simpl; try reflexivity.
  - now rewrite IH.
Qed.

Lemma slice_to_prefix (n : nat) (s : string) :
  prefix (Py.slice_to n s) s = true.
Proof.
  unfold Py.slice_to. revert s.
  induction n as [|n IH]; intros [|c s]; simpl; try reflexivity.
  destruct (ascii_dec c c) as [_|ne]; [apply IH | now elim ne].
Qed.

Lemma slice_to_short (n : nat) (s : string) :
  String.length s <= n -> Py.slice_to n s = s.
Proof.
  unfold Py.slice_to. revert s.
  induction n as [|n IH]; intros [|c s]; simpl; intros Hlen;
    try reflexivity; try lia.
  f_equal. apply IH. lia.
Qed.

Lemma truthy_some (s : string) : Py.truthy (Some s) = negb (s =? EmptyString).
Proof. now destruct s. Qed.

(** ** One write to standard output *)

Lemma print_healthy (ev : console_event) (w : world) :
  healthy w -> Py.print ev w = (Returned tt, emit_console ev w).
Proof. unfold healthy, Py.print. now intros ->. Qed.

Lemma print_fault (ev : console_event) (w : world) e rest :
  stdout_faults w = Some e :: rest ->
  Py.print ev w = (Raised e, set_faults rest w).
Proof. unfold Py.print. now intros ->. Qed.

Lemma healthy_emit_console ev w : healthy w -> healthy (emit_console ev w).
Proof. exact (fun H => H). Qed.

Lemma healthy_emit_record r w : healthy w -> healthy (emit_record r w).
Proof. exact (fun H => H). Qed.

Lemma healthy_note_request u w : healthy w -> healthy (note_request u w).
Proof. exact (fun H => H). Qed.

Lemma healthy_set_logs e w : healthy w -> healthy (set_logs e w).
Proof. exact (fun H => H). Qed.

#[local] Hint Resolve healthy_emit_console healthy_emit_record
  healthy_note_request healthy_set_logs : world.

(** ** [log_message] *)

Lemma healthy_logged l message level w :
  healthy w -> healthy (logged l message level w).
Proof.
  unfold logged. intros H.
  destruct (logging.root_level <=? levelno l)%Z; auto with world.
Qed.

#[local] Hint Resolve healthy_logged : world.

Lemma log_message_severity (message level : string) (l : Level) (w : world) :
  healthy w ->
  logging.severity_function (Py.lower level) = Some l ->
  log_message message level w = (Returned tt, logged l message level w).
Proof.
  intros Hw Hl. unfold log_message, bind.
  rewrite (print_healthy _ _ Hw).
  unfold logging.call_attr. rewrite Hl.
  unfold logging.emit, logged.
  now destruct (logging.root_level <=? levelno l)%Z.
Qed.

Lemma log_message_info (message : string) (w : world) :
  healthy w ->
  log_message message "INFO" w = (Returned tt, logged INFO message "INFO" w).
Proof. intros Hw. now apply log_message_severity. Qed.

Lemma log_message_error (message : string) (w : world) :
  healthy w ->
  log_message message "ERROR" w = (Returned tt, logged ERROR message "ERROR" w).
Proof. intros Hw. now apply log_message_severity. Qed.

Lemma log_message_print_fault (message level : string) (w : world) e rest :
  stdout_faults w = Some e :: rest ->
  log_message message level w = (Raised e, set_faults rest w).
Proof.
  intros Hf. unfold log_message, bind. now rewrite (print_fault _ _ _ _ Hf).
Qed.

Lemma logged_info_log_file message w :
  log_file (logged INFO message "INFO" w)
  = (log_file w ++ [mk_record INFO message])%list.
Proof. reflexivity. Qed.

Lemma logged_info_console message w :
  console (logged INFO message "INFO" w)
  = (console w ++ [ColorLine Fore.GREEN message])%list.
Proof. reflexivity. Qed.

Lemma logged_error_log_file message w :
  log_file (logged ERROR message "ERROR" w)
  = (log_file w ++ [mk_record ERROR message])%list.
Proof. reflexivity. Qed.

Lemma logged_error_console message w :
  console (logged ERROR message "ERROR" w)
  = (console w ++ [ColorLine Fore.RED message])%list.
Proof. reflexivity. Qed.

(** ** [fetch_standards] *)

Lemma http_error_msg_2xx (r : Response) :
  (200 <= status_code r < 300)%Z -> requests.http_error_msg r = None.
Proof.
  intros [Hlo Hhi]. unfold requests.http_error_msg.
  destruct (Z.leb_spec 400 (status_code r)); [lia|].
  destruct (Z.leb_spec 500 (status_code r)); [lia|].
  reflexivity.
Qed.

(** The world after a fetch that went through. *)
Lemma fetch_standards_returns (u : string) (w : world) (r : Response) :
  healthy w ->
  network w u = Responded r ->
  requests.http_error_msg r = None ->
  fetch_standards u w
  = (Returned (Some (text r)),
     logged INFO success_message "INFO" (note_request u w)).
Proof.
  intros Hw Hnet Hst.
  unfold fetch_standards, try_except, bind, requests.get,
    requests.raise_for_status.
  rewrite Hnet, Hst. unfold ret at 1.
  rewrite log_message_info by auto with world.
  reflexivity.
Qed.

(** The world after a fetch whose request raised. *)
Lemma fetch_standards_absorbs (u : string) (w : world) (e : exn) :
  healthy w ->
  request_raises w u e ->
  fetch_standards u w
  = (Returned None,
     logged ERROR (error_message e) "ERROR" (note_request u w)).
Proof.
  intros Hw Hraise.
  unfold fetch_standards, try_except, bind, requests.get,
    requests.raise_for_status.
  destruct Hraise as [e Hnet | r msg Hnet Hmsg]; rewrite Hnet.
  - rewrite log_message_error by auto with world. reflexivity.
  - rewrite Hmsg. unfold raise at 1.
    rewrite log_message_error by auto with world. reflexivity.
Qed.

(** Whatever the network says, the request either comes back without an
    error status or raises. *)
Lemma request_returns_or_raises (w : world) (u : string) :
  (exists r, network w u = Responded r /\ requests.http_error_msg r = None)
  \/ (exists e, request_raises w u e).
Proof.
  destruct (network w u) as [r|e] eqn:Hnet.
  - destruct (requests.http_error_msg r) as [msg|] eqn:Hmsg.
    + right. eexists. eapply status_raises; eassumption.
    + left. now exists r.
  - right. exists e. now apply get_raises.
Qed.

Lemma fetch_standards_healthy (u : string) (w : world) :
  healthy w -> healthy (snd (fetch_standards u w)).
Proof.
  intros Hw.
  destruct (request_returns_or_raises w u) as [(r & Hnet & Hst)|(e & He)].
  - rewrite (fetch_standards_returns u w r Hw Hnet Hst). simpl.
    auto with world.
  - rewrite (fetch_standards_absorbs u w e Hw He). simpl.
    auto with world.
Qed.

(** ** Statements that leave the site alone *)

Lemma keeps_site_ret {A : Type} (a : A) : keeps_site (ret a).
Proof. now split. Qed.

Lemma keeps_site_raise {A : Type} (e : exn) : keeps_site (@raise A e).
Proof. now split. Qed.

Lemma keeps_site_bind {A B : Type} (m : M A) (k : A -> M B) :
  keeps_site m -> (forall a, keeps_site (k a)) -> keeps_site (bind m k).
Proof.
  intros Hm Hk w. unfold bind.
  specialize (Hm w). destruct (m w) as [[a|e] w1]; simpl in Hm.
  - destruct (Hk a w1) as [Hl Hn]. destruct Hm as [Hl1 Hn1].
    split; congruence.
  - exact Hm.
Qed.

Lemma keeps_site_try {A : Type} (body : M A) (handler : exn -> M A) :
  keeps_site body -> (forall e, keeps_site (handler e)) ->
  keeps_site (try_except body handler).
Proof.
  intros Hb Hh w. unfold try_except.
  specialize (Hb w). destruct (body w) as [[a|e] w1]; simpl in Hb.
  - exact Hb.
  - destruct (Hh e w1) as [Hl Hn]. destruct Hb as [Hl1 Hn1].
    split; congruence.
Qed.

Lemma keeps_site_print ev : keeps_site (Py.print ev).
Proof.
  intros w. unfold Py.print.
  now destruct (stdout_faults w) as [|[e|] rest].
Qed.

Lemma keeps_site_call_attr name message :
  keeps_site (logging.call_attr name message).
Proof.
  intros w. unfold logging.call_attr, logging.emit, raise.
  destruct (logging.severity_function name) as [l|]; [|now split].
  now destruct (logging.root_level <=? levelno l)%Z.
Qed.

Lemma keeps_site_log_message message level :
  keeps_site (log_message message level).
Proof.
  apply keeps_site_bind; [apply keeps_site_print|].
  intros _. apply keeps_site_call_attr.
Qed.

Lemma keeps_site_get u : keeps_site (requests.get u).
Proof.
  intros w. unfold requests.get. now destruct (network w u).
Qed.

Lemma keeps_site_raise_for_status r : keeps_site (requests.raise_for_status r).
Proof.
  unfold requests.raise_for_status.
  destruct (requests.http_error_msg r);
    [apply keeps_site_raise | apply keeps_site_ret].
Qed.

#[local] Hint Resolve keeps_site_ret keeps_site_raise keeps_site_print
  keeps_site_call_attr keeps_site_log_message keeps_site_get
  keeps_site_raise_for_status : world.

Lemma keeps_site_fetch_standards u : keeps_site (fetch_standards u).
Proof.
  apply keeps_site_try.
  - repeat (apply keeps_site_bind; [auto with world | intros ?]).
    auto with world.
  - intros e. apply keeps_site_bind; auto with world.
Qed.

Lemma keeps_site_show_content content : keeps_site (show_content content).
Proof.
  unfold show_content. destruct (Py.truthy content); [|auto with world].
  apply keeps_site_bind; auto with world.
Qed.

#[local] Hint Resolve keeps_site_fetch_standards keeps_site_show_content
  : world.

Lemma fetch_standards_network (u : string) (w : world) :
  network (snd (fetch_standards u w)) = network w.
Proof. apply keeps_site_fetch_standards. Qed.



(** C2: whatever exception the request raises (the GET itself failing, or a
    4xx/5xx status raised by [raise_for_status]), [fetch_standards] catches
    it and returns [None]; exactly one record is appended to the log, at
    ERROR, made of the exception's message and the hint "Ensure the URL is
    correct and public."; nothing is raised to the caller. *)
Theorem fetch_standards_absorbs_request_error (u : string) (w : world) (e : exn) :
  healthy w ->
  request_raises w u e ->
  fst (fetch_standards u w) = Returned None
  /\ log_file (snd (fetch_standards u w))
     = (log_file w
        ++ [mk_record ERROR
              ("Error fetching standards: " ++ exn_str e
               ++ ". Ensure the URL is correct and public.")])%list
  /\ console (snd (fetch_standards u w))
     = (console w
        ++ [ColorLine Fore.RED
              ("Error fetching standards: " ++ exn_str e
               ++ ". Ensure the URL is correct and public.")])%list.
Proof.
  intros Hw He.
  rewrite (fetch_standards_absorbs u w e Hw He).
  repeat split.
Qed.

Lemma fetch_standards_absorbs_request_error_witness :
  (fst (fetch_standards url (start IsDir [] (Failed dns_failure)))
   = Returned None
   /\ log_file (snd (fetch_standards url (start IsDir [] (Failed dns_failure))))
      = [mk_record ERROR
           "Error fetching standards: Failed to resolve 'raw.githubusercontent.com'. Ensure the URL is correct and public."])
  /\ (fst (fetch_standards url (start IsDir [] (Responded not_found)))
      = Returned None
      /\ log_file (snd (fetch_standards url (start IsDir [] (Responded not_found))))
         = [mk_record ERROR
              "Error fetching standards: 404 Client Error: Not Found for url: https://raw.githubusercontent.com/Projectbits/code_std/main/Coding%20Standards.md. Ensure the URL is correct and public."]).
Proof.
  split.
  - destruct (fetch_standards_absorbs_request_error url
                (start IsDir [] (Failed dns_failure)) dns_failure)
      as (Hres & Hlog & _).
    + reflexivity.
    + apply get_raises. reflexivity.
    + split; [exact Hres | exact Hlog].
  - destruct (fetch_standards_absorbs_request_error url
                (start IsDir [] (Responded not_found))
                (mk_exn "HTTPError"
                   "404 Client Error: Not Found for url: https://raw.githubusercontent.com/Projectbits/code_std/main/Coding%20Standards.md"))
      as (Hres & Hlog & _).
    + reflexivity.
    + apply (status_raises _ _ not_found); reflexivity.
    + split; [exact Hres | exact Hlog].
Defined.

(** C8: with the remote side a fixed function of the URL, a second call of
    [fetch_standards] on the same URL returns what the first returned. *)
Theorem fetch_standards_twice_same_result (u : string) (w : world) :
  healthy w ->
  fst (fetch_standards u (snd (fetch_standards u w)))
  = fst (fetch_standards u w).
Proof.
  intros Hw.
  pose proof (fetch_standards_healthy u w Hw) as Hw1.
  pose proof (fetch_standards_network u w) as Hnet1.
  set (w1 := snd (fetch_standards u w)) in *.
  destruct (request_returns_or_raises w u) as [(r & Hnet & Hst)|(e & He)].
  - rewrite (fetch_standards_returns u w r Hw Hnet Hst).
    rewrite (fetch_standards_returns u w1 r Hw1); trivial.
    now rewrite Hnet1.
  - rewrite (fetch_standards_absorbs u w e Hw He).
    rewrite (fetch_standards_absorbs u w1 e Hw1); trivial.
    destruct He as [e Hnet | r msg Hnet Hmsg].
    + apply get_raises. now rewrite Hnet1.
    + eapply status_raises; [rewrite Hnet1|]; eassumption.
Qed.

Lemma fetch_standards_twice_same_result_witness :
  fst (fetch_standards url
         (snd (fetch_standards url
                 (start IsDir [] (Responded (ok_response standards_body))))))
  = Returned (Some standards_body).
Proof.
  rewrite (fetch_standards_twice_same_result url
             (start IsDir [] (Responded (ok_response standards_body)))).
  - reflexivity.
  - reflexivity.
Defined.

(** ** The severities of [log_message] *)

Lemma colors_get_default (level : string) :
  In level ["INFO"; "WARNING"; "ERROR"] \/ colors_get level = Fore.WHITE.
Proof.
  unfold colors_get.
  destruct (String.eqb_spec level "INFO") as [->|_]; [simpl; auto|].
  destruct (String.eqb_spec level "WARNING") as [->|_]; [simpl; auto|].
  destruct (String.eqb_spec level "ERROR") as [->|_]; [simpl; auto|].
  now right.
Qed.

Lemma colors_distinct :
  NoDup [colors_get "INFO"; colors_get "WARNING"; colors_get "ERROR";
         Fore.WHITE].
Proof.
  repeat constructor; simpl; intuition discriminate.
Qed.

(** C4, as stated, fails at two severities: ["FOO"] gets its white line on
    the console and then the call raises, nothing reaching the log; and
    ["DEBUG"] returns, but its record is below the level of the root logger
    and no line is written to the log. *)
Lemma log_message_unknown_or_debug_severity :
  (fst (log_message "x" "FOO" (start IsDir [] (Failed dns_failure)))
   = Raised (mk_exn "AttributeError" "module 'logging' has no attribute 'foo'")
   /\ console (snd (log_message "x" "FOO" (start IsDir [] (Failed dns_failure))))
      = [ColorLine Fore.WHITE "x"]
   /\ log_file (snd (log_message "x" "FOO" (start IsDir [] (Failed dns_failure))))
      = [])
  /\ (fst (log_message "x" "DEBUG" (start IsDir [] (Failed dns_failure)))
      = Returned tt
      /\ log_file (snd (log_message "x" "DEBUG"
                          (start IsDir [] (Failed dns_failure))))
         = []).
Proof. repeat split. Qed.

(** C4, amended: for every message and every severity string whose
    lower-case form names a severity function of [logging], [log_message]
    returns: it puts one line on the console, in the color the severity
    maps to, and appends one record at that severity to the log when the
    severity is INFO or above (none for DEBUG, which the root logger
    drops).  INFO, WARNING and ERROR map to three distinct colors, none of
    them white, and every other severity string maps to white. *)
Theorem log_message_known_severity
    (message level : string) (l : Level) (w : world) :
  healthy w ->
  logging.severity_function (Py.lower level) = Some l ->
  fst (log_message message level w) = Returned tt
  /\ console (snd (log_message message level w))
     = (console w ++ [ColorLine (colors_get level) message])%list
  /\ log_file (snd (log_message message level w))
     = (log_file w
        ++ (if (levelno INFO <=? levelno l)%Z
            then [mk_record l message] else []))%list
  /\ NoDup [colors_get "INFO"; colors_get "WARNING"; colors_get "ERROR";
            Fore.WHITE]
  /\ (In level ["INFO"; "WARNING"; "ERROR"] \/ colors_get level = Fore.WHITE).
Proof.
  intros Hw Hl.
  rewrite (log_message_severity message level l w Hw Hl).
  unfold logged, logging.root_level.
  split; [reflexivity|].
  split; [now destruct (levelno INFO <=? levelno l)%Z|].
  split.
  - destruct (levelno INFO <=? levelno l)%Z; simpl; trivial.
    symmetry. apply app_nil_r.
  - split; [apply colors_distinct | apply colors_get_default].
Qed.

Lemma log_message_known_severity_witness :
  fst (log_message "disk almost full" "WARNING"
         (start IsDir [] (Failed dns_failure))) = Returned tt
  /\ console (snd (log_message "disk almost full" "WARNING"
                     (start IsDir [] (Failed dns_failure))))
     = [ColorLine Fore.YELLOW "disk almost full"]
  /\ log_file (snd (log_message "disk almost full" "WARNING"
                      (start IsDir [] (Failed dns_failure))))
     = [mk_record WARNING "disk almost full"].
Proof.
  destruct (log_message_known_severity "disk almost full" "WARNING" WARNING
              (start IsDir [] (Failed dns_failure)))
    as (Hres & Hcon & Hlog & _).
  - reflexivity.
  - reflexivity.
  - split; [exact Hres | split; [exact Hcon | exact Hlog]].
Defined.

(** ** The run of the script *)

Lemma append_empty_r (s : string) : s ++ EmptyString = s.
Proof. induction s as [|c s IH]; simpl; [reflexivity | now rewrite IH]. Qed.

Lemma append_assoc (s1 s2 s3 : string) : (s1 ++ s2) ++ s3 = s1 ++ (s2 ++ s3).
Proof. induction s1 as [|c s1 IH]; simpl; [reflexivity | now rewrite IH]. Qed.

Lemma preview_printed_app (c1 c2 : list console_event) :
  preview_printed (c1 ++ c2) = preview_printed c1 ++ preview_printed c2.
Proof.
  induction c1 as [|[color message|t] c1 IH]; simpl; trivial.
  now rewrite IH, append_assoc.
Qed.

Arguments Py.slice_to : simpl never.

Lemma show_content_healthy (content : option string) (w : world) :
  healthy w ->
  show_content content w = (Returned tt, after_show content w).
Proof.
  intros Hw. destruct content as [[|c s]|]; try reflexivity.
  unfold show_content, bind.
  change (Py.truthy (Some (String c s))) with true. cbv beta iota.
  rewrite (log_message_info _ _ Hw).
  now rewrite print_healthy by auto with world.
Qed.

Lemma healthy_after_show content w : healthy w -> healthy (after_show content w).
Proof. intros Hw. now destruct content as [[|c s]|]. Qed.

#[local] Hint Resolve healthy_after_show : world.

Lemma makedirs_present (w : world) :
  logs_entry w = IsDir -> os.makedirs_exist_ok w = (Returned tt, w).
Proof. unfold os.makedirs_exist_ok. now intros ->. Qed.

Lemma basicConfig_present (w : world) :
  logs_entry w = IsDir -> logging.basicConfig w = (Returned tt, w).
Proof. unfold logging.basicConfig. now intros ->. Qed.

(** The whole of [main], given what the fetch does. *)
Lemma main_healthy (w : world) (content : option string) (w2 : world) :
  healthy w ->
  logs_entry w = IsDir ->
  fetch_standards url (logged INFO "Script started" "INFO" w)
  = (Returned content, w2) ->
  main w
  = (Returned tt, logged INFO "Script completed" "INFO" (after_show content w2)).
Proof.
  intros Hw Hdir Hfetch.
  assert (Hw2 : healthy w2).
  { change w2 with (snd (Returned content, w2)). rewrite <- Hfetch.
    apply fetch_standards_healthy. auto with world. }
  unfold main, bind.
  rewrite (makedirs_present w Hdir), (log_message_info _ _ Hw), Hfetch.
  rewrite (show_content_healthy content w2 Hw2).
  now rewrite log_message_info by auto with world.
Qed.

Lemma script_healthy (w : world) (content : option string) (w2 : world) :
  healthy w ->
  logs_entry w = IsDir ->
  fetch_standards url (logged INFO "Script started" "INFO" w)
  = (Returned content, w2) ->
  script w
  = (Returned tt, logged INFO "Script completed" "INFO" (after_show content w2)).
Proof.
  intros Hw Hdir Hfetch. unfold script, bind.
  rewrite (basicConfig_present w Hdir).
  now apply main_healthy.
Qed.

(** A run whose request comes back without an error status. *)
Lemma script_fetched (w : world) (r : Response) :
  healthy w ->
  logs_entry w = IsDir ->
  network w url = Responded r ->
  requests.http_error_msg r = None ->
  script w
  = (Returned tt,
     logged INFO "Script completed" "INFO"
       (after_show (Some (text r))
          (logged INFO success_message "INFO"
             (note_request url (logged INFO "Script started" "INFO" w))))).
Proof.
  intros Hw Hdir Hnet Hst.
  apply script_healthy; trivial.
  apply fetch_standards_returns; auto with world.
Qed.

(** A run whose request raises. *)
Lemma script_not_fetched (w : world) (e : exn) :
  healthy w ->
  logs_entry w = IsDir ->
  request_raises w url e ->
  script w
  = (Returned tt,
     logged INFO "Script completed" "INFO"
       (logged ERROR (error_message e) "ERROR"
          (note_request url (logged INFO "Script started" "INFO" w)))).
Proof.
  intros Hw Hdir He.
  apply (script_healthy w None); trivial.
  apply fetch_standards_absorbs; auto with world.
  destruct He as [e Hnet | r msg Hnet Hmsg].
  - now apply get_raises.
  - now apply (status_raises _ _ r).
Qed.

(** C3, as stated, fails for the empty payload: a 200 response with an
    empty body makes [fetch_standards] return the empty string, a result that is
    not the absence value, and yet the orchestration neither logs the
    preview header nor prints anything: the run shows the start, success
    and completion lines only. *)
Lemma show_content_skips_empty_payload :
  fst (fetch_standards url (start IsDir [] (Responded (ok_response EmptyString))))
  = Returned (Some EmptyString)
  /\ show_content (Some EmptyString) (start IsDir [] (Responded (ok_response EmptyString)))
     = (Returned tt, start IsDir [] (Responded (ok_response EmptyString)))
  /\ console (snd (script (start IsDir [] (Responded (ok_response EmptyString)))))
     = [ColorLine Fore.GREEN "Script started";
        ColorLine Fore.GREEN "Successfully fetched standards";
        ColorLine Fore.GREEN "Script completed"]
  /\ log_file (snd (script (start IsDir [] (Responded (ok_response EmptyString)))))
     = [mk_record INFO "Script started";
        mk_record INFO "Successfully fetched standards";
        mk_record INFO "Script completed"].
Proof. repeat split. Qed.

(** C3, amended: when the fetch returned a non-empty string, the
    orchestration logs the INFO message "Standards content (first 500
    chars):" and then prints the first 500 characters of the string; the
    two steps are skipped, with nothing logged or printed, when the fetch
    returned the absence value or the empty string. *)
Theorem show_content_nonempty_payload (s : string) (w : world) :
  healthy w ->
  s <> EmptyString ->
  (fst (show_content (Some s) w) = Returned tt
   /\ console (snd (show_content (Some s) w))
      = (console w
         ++ [ColorLine Fore.GREEN "Standards content (first 500 chars):";
             PlainLine (Py.slice_to 500 s)])%list
   /\ log_file (snd (show_content (Some s) w))
      = (log_file w
         ++ [mk_record INFO "Standards content (first 500 chars):"])%list)
  /\ show_content None w = (Returned tt, w)
  /\ show_content (Some EmptyString) w = (Returned tt, w).
Proof.
  intros Hw Hs. split; [|split; reflexivity].
  rewrite (show_content_healthy (Some s) w Hw).
  destruct s as [|c s]; [now elim Hs|].
  simpl. rewrite <- app_assoc. repeat split.
Qed.

Lemma show_content_nonempty_payload_witness :
  console (snd (show_content (Some "# Coding Standards")
                  (start IsDir [] (Responded (ok_response "# Coding Standards")))))
  = [ColorLine Fore.GREEN "Standards content (first 500 chars):";
     PlainLine "# Coding Standards"].
Proof.
  destruct (show_content_nonempty_payload "# Coding Standards"
              (start IsDir [] (Responded (ok_response "# Coding Standards"))))
    as ((_ & Hcon & _) & _).
  - reflexivity.
  - discriminate.
  - exact Hcon.
Defined.

(** What the wrapper does with a text that holds no [ESC]. *)
Lemma csi_match_no_esc (s : string) :
  colorama.has_esc s = false -> colorama.csi_match s = None.
Proof.
  destruct s as [|c rest]; [reflexivity|].
  intros H. cbn [colorama.has_esc] in H.
  apply orb_false_iff in H. destruct H as [Hc Hrest].
  unfold colorama.csi_match.
  destruct (c =? colorama.SOH)%char.
  - destruct rest as [|e [|b rest']]; try reflexivity.
    cbn [colorama.has_esc] in Hrest. apply orb_false_iff in Hrest.
    destruct Hrest as [He _]. unfold colorama.csi_body. now rewrite He.
  - unfold colorama.csi_body. destruct rest as [|b rest']; [reflexivity|].
    now rewrite Hc.
Qed.

Lemma strip_csi_no_esc (s : string) :
  colorama.has_esc s = false -> colorama.strip_csi 0 s = s.
Proof.
  induction s as [|c rest IH]; [reflexivity|]. intros H.
  change (colorama.strip_csi 0 (String c rest))
    with (match colorama.csi_match (String c rest) with
          | Some (S k) => colorama.strip_csi k rest
          | _ => String c (colorama.strip_csi 0 rest)
          end).
  rewrite (csi_match_no_esc _ H).
  simpl in H. apply orb_false_iff in H. destruct H as [_ Hrest].
  now rewrite (IH Hrest).
Qed.

Lemma has_osc_no_esc (s : string) :
  colorama.has_esc s = false -> colorama.has_osc s = false.
Proof.
  induction s as [|c rest IH]; [reflexivity|]. intros H.
  simpl in H. apply orb_false_iff in H. destruct H as [Hc Hrest].
  simpl. destruct rest as [|d rest']; [reflexivity|].
  rewrite Hc. simpl. now apply IH.
Qed.

Lemma print_through_terminal (t : string) :
  colorama.print_through false t
  = Some ((t ++ colorama.RESET_ALL) ++ colorama.LF ++ colorama.RESET_ALL).
Proof. reflexivity. Qed.

Lemma print_through_no_esc (t : string) :
  colorama.has_esc t = false ->
  colorama.print_through true t = Some (t ++ colorama.LF).
Proof.
  intros H. unfold colorama.print_through, colorama.write.
  rewrite (has_osc_no_esc t H), (strip_csi_no_esc t H). reflexivity.
Qed.

(** C5, as stated, fails for a body that carries ANSI sequences when
    standard output is not a terminal: the fetch succeeds with a body of
    12 characters and [print] is handed all 12, but the wrapper that
    [init(autoreset=True)] put in the place of standard output strips the
    sequences, and the console receives the 3 characters "red". *)
Lemma preview_loses_ansi_sequences :
  fst (fetch_standards url (start IsDir [] (Responded (ok_response ansi_body))))
  = Returned (Some ansi_body)
  /\ String.length ansi_body = 12
  /\ preview_printed
       (console (snd (script (start IsDir [] (Responded (ok_response ansi_body))))))
     = Py.slice_to 500 ansi_body
  /\ Py.slice_to 500 ansi_body = ansi_body
  /\ colorama.print_through true (Py.slice_to 500 ansi_body)
     = Some ("red" ++ colorama.LF)
  /\ colorama.terminal true
       (console (snd (script (start IsDir [] (Responded (ok_response ansi_body))))))
     = Some ("--> Script started" ++ colorama.LF
             ++ "--> Successfully fetched standards" ++ colorama.LF
             ++ "--> Standards content (first 500 chars):" ++ colorama.LF
             ++ "red" ++ colorama.LF
             ++ "--> Script completed" ++ colorama.LF)
  /\ colorama.print_through true (Py.slice_to 500 ansi_body)
     <> Some (Py.slice_to 500 ansi_body ++ colorama.LF).
Proof. repeat split. discriminate. Qed.

(** C5, amended: in a run whose fetch succeeded with a body of length L,
    the text handed to [print] as the preview is exactly the first
    min(L, 500) characters of the body, a prefix of the body of that
    length (for L = 0 the preview is skipped and nothing is handed over).
    Standard output is the wrapper of colorama: on a terminal it passes
    these characters on unchanged, each write followed by its reset
    sequence; on a standard output that is not a terminal it strips ANSI
    sequences, and passes the characters on unchanged when they hold no
    escape character. *)
Theorem preview_truncation_law (w : world) (r : Response) :
  logs_entry w = IsDir ->
  healthy w ->
  network w url = Responded r ->
  (200 <= status_code r < 300)%Z ->
  preview_printed (console (snd (script w)))
  = preview_printed (console w) ++ Py.slice_to 500 (text r)
  /\ prefix (Py.slice_to 500 (text r)) (text r) = true
  /\ String.length (Py.slice_to 500 (text r))
     = Nat.min (String.length (text r)) 500
  /\ colorama.print_through false (Py.slice_to 500 (text r))
     = Some ((Py.slice_to 500 (text r) ++ colorama.RESET_ALL)
             ++ colorama.LF ++ colorama.RESET_ALL)
  /\ (colorama.has_esc (Py.slice_to 500 (text r)) = true
      \/ colorama.print_through true (Py.slice_to 500 (text r))
         = Some (Py.slice_to 500 (text r) ++ colorama.LF)).
Proof.
  intros Hdir Hw Hnet Hst.
  split; [|split; [apply slice_to_prefix|split; [apply slice_to_length|]]].
  - rewrite (script_fetched w r Hw Hdir Hnet (http_error_msg_2xx r Hst)).
    destruct (text r) as [|c s]; simpl.
    + rewrite !preview_printed_app. simpl.
      now rewrite !append_empty_r.
    + rewrite !preview_printed_app. simpl.
      now rewrite !append_empty_r.
  - split; [apply print_through_terminal|].
    destruct (colorama.has_esc (Py.slice_to 500 (text r))) eqn:Hesc.
    + now left.
    + right. now apply print_through_no_esc.
Qed.

Lemma preview_truncation_law_witness :
  preview_printed
    (console (snd (script (start IsDir [] (Responded (ok_response standards_body))))))
  = "# Coding Standards" ++ String (ascii_of_nat 10) (filler 481)
  /\ String.length (Py.slice_to 500 standards_body) = 500
  /\ colorama.print_through true (Py.slice_to 500 standards_body)
     = Some (Py.slice_to 500 standards_body ++ colorama.LF).
Proof.
  destruct (preview_truncation_law
              (start IsDir [] (Responded (ok_response standards_body)))
              (ok_response standards_body))
    as (Hprev & _ & Hlen & _ & [Hesc|Hpiped]).
  - reflexivity.
  - reflexivity.
  - reflexivity.
  - simpl. lia.
  - vm_compute in Hesc. discriminate Hesc.
  - split; [exact Hprev | split; [exact Hlen | exact Hpiped]].
Defined.

(** A run on a working standard output in a directory that has [logs]
    reaches the end of the module, whatever the request did. *)
Lemma script_completes (w : world) :
  logs_entry w = IsDir ->
  healthy w ->
  exists (content : option string) (w2 : world),
    healthy w2
    /\ script w
       = (Returned tt,
          logged INFO "Script completed" "INFO" (after_show content w2)).
Proof.
  intros Hdir Hw.
  set (w1 := logged INFO "Script started" "INFO" w).
  assert (Hw1 : healthy w1) by (subst w1; auto with world).
  destruct (request_returns_or_raises w1 url) as [(r & Hnet & Hst)|(e & He)].
  - exists (Some (text r)), (logged INFO success_message "INFO" (note_request url w1)).
    split; [auto with world|].
    apply script_healthy; trivial.
    now apply fetch_standards_returns.
  - exists None, (logged ERROR (error_message e) "ERROR" (note_request url w1)).
    split; [auto with world|].
    apply script_healthy; trivial.
    now apply fetch_standards_absorbs.
Qed.

Lemma main_logs_entry (w : world) :
  logs_entry w <> IsFile -> logs_entry (snd (main w)) = IsDir.
Proof.
  intros Hentry.
  assert (Hrest : keeps_site
            (log_message "Script started" "INFO" ;;
             content <- fetch_standards url ;;
             show_content content ;;
             log_message "Script completed" "INFO")).
  { repeat (apply keeps_site_bind; [auto with world | intros ?]).
    auto with world. }
  unfold main. unfold bind at 1. unfold os.makedirs_exist_ok.
  destruct (logs_entry w) eqn:Hl; [| |now elim Hentry].
  - now rewrite (proj1 (Hrest _)).
  - now rewrite (proj1 (Hrest _)).
Qed.

Lemma script_logs_entry (w : world) :
  logs_entry w = IsDir -> logs_entry (snd (script w)) = IsDir.
Proof.
  intros Hdir. unfold script, bind.
  rewrite (basicConfig_present w Hdir).
  apply main_logs_entry. now rewrite Hdir.
Qed.

Lemma script_returns (w : world) :
  logs_entry w = IsDir -> healthy w -> fst (script w) = Returned tt.
Proof.
  intros Hdir Hw.
  now destruct (script_completes w Hdir Hw) as (content & w2 & _ & ->).
Qed.

Lemma script_keeps_healthy (w : world) :
  logs_entry w = IsDir -> healthy w -> healthy (snd (script w)).
Proof.
  intros Hdir Hw.
  destruct (script_completes w Hdir Hw) as (content & w2 & Hw2 & ->).
  simpl. auto with world.
Qed.

(** C6: a run that reaches the end of the module exits with status 0,
    whether the fetch returned a body or the absence value: on a working
    standard output, in a directory that has [logs], the script completes
    and exits 0 for every behaviour of the remote side. *)
Theorem script_exit_status_zero (w : world) :
  logs_entry w = IsDir ->
  healthy w ->
  fst (script w) = Returned tt
  /\ exit_status (fst (script w)) = 0%Z
  /\ In (mk_record INFO "Script completed") (log_file (snd (script w))).
Proof.
  intros Hdir Hw.
  destruct (script_completes w Hdir Hw) as (content & w2 & _ & ->).
  repeat split. simpl. apply in_or_app. right. now left.
Qed.

Lemma script_exit_status_zero_witness :
  fst (fetch_standards url (start IsDir [] (Failed dns_failure))) = Returned None
  /\ exit_status (fst (script (start IsDir [] (Failed dns_failure)))) = 0%Z
  /\ exit_status
       (fst (script (start IsDir [] (Responded (ok_response standards_body)))))
     = 0%Z.
Proof.
  split; [reflexivity|]. split.
  - destruct (script_exit_status_zero (start IsDir [] (Failed dns_failure)))
      as (_ & Hexit & _); [reflexivity | reflexivity | exact Hexit].
  - destruct (script_exit_status_zero
                (start IsDir [] (Responded (ok_response standards_body))))
      as (_ & Hexit & _); [reflexivity | reflexivity | exact Hexit].
Defined.

(** C7: the first step of [main] makes sure [logs] is a directory: it
    creates it when absent and does nothing, without an error, when it is
    there; a run leaves the directory in place, so a second run, too,
    passes this step and completes. *)
Theorem makedirs_idempotent (w : world) :
  logs_entry w = IsDir ->
  healthy w ->
  os.makedirs_exist_ok w = (Returned tt, w)
  /\ os.makedirs_exist_ok (set_logs Absent w) = (Returned tt, w)
  /\ logs_entry (snd (main (set_logs Absent w))) = IsDir
  /\ fst (script w) = Returned tt
  /\ logs_entry (snd (script w)) = IsDir
  /\ os.makedirs_exist_ok (snd (script w)) = (Returned tt, snd (script w))
  /\ fst (script (snd (script w))) = Returned tt.
Proof.
  intros Hdir Hw.
  pose proof (script_logs_entry w Hdir) as Hdir'.
  split; [now apply makedirs_present|].
  split; [destruct w; simpl in Hdir; now subst|].
  split; [now apply main_logs_entry|].
  split; [now apply script_returns|].
  split; [exact Hdir'|].
  split; [now apply makedirs_present|].
  apply script_returns; trivial.
  now apply script_keeps_healthy.
Qed.

Lemma makedirs_idempotent_witness :
  os.makedirs_exist_ok (start IsDir [] (Responded (ok_response standards_body)))
  = (Returned tt, start IsDir [] (Responded (ok_response standards_body)))
  /\ fst (script (snd (script
                         (start IsDir [] (Responded (ok_response standards_body))))))
     = Returned tt.
Proof.
  destruct (makedirs_idempotent
              (start IsDir [] (Responded (ok_response standards_body))))
    as (Hstep & _ & _ & _ & _ & _ & Hsecond).
  - reflexivity.
  - reflexivity.
  - split; [exact Hstep | exact Hsecond].
Defined.

(** C9: [basicConfig] opens the log file when the module is loaded, before
    [main] and its directory creation: started where [logs] does not
    exist, the script ends at once with an unhandled [FileNotFoundError]
    (exit status 1) and leaves the world as it found it: no "Script
    started" in the log or on the console, no request sent, no directory
    created. *)
Theorem script_without_logs_directory (w : world) :
  logs_entry w = Absent ->
  script w
  = (Raised (mk_exn "FileNotFoundError"
               "[Errno 2] No such file or directory: 'logs/fetch_github_standards.log'"),
     w)
  /\ exit_status (fst (script w)) = 1%Z
  /\ log_file (snd (script w)) = log_file w
  /\ console (snd (script w)) = console w
  /\ requests_sent (snd (script w)) = requests_sent w
  /\ logs_entry (snd (script w)) = Absent.
Proof.
  intros Habsent.
  assert (Hrun : script w
                 = (Raised (mk_exn "FileNotFoundError"
                              "[Errno 2] No such file or directory: 'logs/fetch_github_standards.log'"),
                    w)).
  { unfold script, bind, logging.basicConfig. now rewrite Habsent. }
  rewrite Hrun. repeat split. exact Habsent.
Qed.

Lemma script_without_logs_directory_witness :
  exit_status
    (fst (script (start Absent [] (Responded (ok_response standards_body)))))
  = 1%Z
  /\ log_file (snd (script (start Absent []
                              (Responded (ok_response standards_body)))))
     = []
  /\ requests_sent (snd (script (start Absent []
                                   (Responded (ok_response standards_body)))))
     = [].
Proof.
  destruct (script_without_logs_directory
              (start Absent [] (Responded (ok_response standards_body))))
    as (_ & Hexit & Hlog & _ & Hreq & _).
  - reflexivity.
  - split; [exact Hexit | split; [exact Hlog | exact Hreq]].
Defined.

(** ** A failing write inside the [try] *)

Lemma log_message_passes (message level : string) (l : Level) (w : world) :
  hd None (stdout_faults w) = None ->
  logging.severity_function (Py.lower level) = Some l ->
  fst (log_message message level w) = Returned tt
  /\ log_file (snd (log_message message level w))
     = log_file (logged l message level w).
Proof.
  intros Hhd Hl. unfold log_message, bind, Py.print.
  destruct (stdout_faults w) as [|[e|] rest]; simpl in Hhd; try discriminate;
    unfold logging.call_attr; rewrite Hl; unfold logging.emit, logged;
    destruct (logging.root_level <=? levelno l)%Z; now split.
Qed.

(** With the success line refused by standard output, the body of the
    [try] has sent the request and raised; what [fetch_standards] does is
    what its handler does from there. *)
Lemma fetch_standards_enters_handler
    (u : string) (w : world) (r : Response) (e : exn) rest :
  network w u = Responded r ->
  requests.http_error_msg r = None ->
  stdout_faults w = Some e :: rest ->
  fetch_standards u w
  = (log_message (error_message e) "ERROR" ;; ret None)
      (set_faults rest (note_request u w)).
Proof.
  intros Hnet Hst Hf.
  unfold fetch_standards, try_except. unfold bind at 1 2 3.
  unfold requests.get, requests.raise_for_status.
  rewrite Hnet, Hst. unfold ret at 1.
  now rewrite (log_message_print_fault _ _ (note_request u w) e rest Hf).
Qed.

(** C10, as stated, fails when standard output stays closed: the response
    is a 200, logging the success record raises, and so does the log call
    of the handler; [fetch_standards] then raises instead of returning
    [None], and no ERROR record reaches the log. *)
Lemma fetch_standards_closed_stdout_propagates :
  network (start IsDir [Some closed_stdout; Some closed_stdout]
             (Responded (ok_response standards_body))) url
  = Responded (ok_response standards_body)
  /\ fst (log_message success_message "INFO"
            (note_request url
               (start IsDir [Some closed_stdout; Some closed_stdout]
                  (Responded (ok_response standards_body)))))
     = Raised closed_stdout
  /\ fst (fetch_standards url
            (start IsDir [Some closed_stdout; Some closed_stdout]
               (Responded (ok_response standards_body))))
     = Raised closed_stdout
  /\ log_file (snd (fetch_standards url
                      (start IsDir [Some closed_stdout; Some closed_stdout]
                         (Responded (ok_response standards_body)))))
     = [].
Proof. repeat split. Qed.

(** C10, amended: the catch-all encloses the logging of the success
    record.  If that logging raises after a 2xx response, no INFO record
    is written and the handler runs: when the handler's own log call goes
    through, [fetch_standards] returns [None] and exactly one ERROR record,
    carrying the message of the logging exception, is logged although the
    request succeeded; when that call raises as well, its exception leaves
    [fetch_standards] and nothing is logged. *)
Theorem fetch_standards_success_log_raises
    (u : string) (w : world) (r : Response) (e : exn) rest :
  network w u = Responded r ->
  (200 <= status_code r < 300)%Z ->
  stdout_faults w = Some e :: rest ->
  fst (log_message success_message "INFO" (note_request u w)) = Raised e
  /\ match hd None rest with
     | None =>
         fst (fetch_standards u w) = Returned None
         /\ log_file (snd (fetch_standards u w))
            = (log_file w ++ [mk_record ERROR (error_message e)])%list
     | Some e' =>
         fst (fetch_standards u w) = Raised e'
         /\ log_file (snd (fetch_standards u w)) = log_file w
     end.
Proof.
  intros Hnet Hst Hf. split.
  - now rewrite (log_message_print_fault _ _ (note_request u w) e rest Hf).
  - rewrite (fetch_standards_enters_handler u w r e rest Hnet
               (http_error_msg_2xx r Hst) Hf).
    set (w1 := set_faults rest (note_request u w)).
    assert (Hrest : stdout_faults w1 = rest) by reflexivity.
    unfold bind.
    destruct (hd None rest) as [e'|] eqn:Hhd.
    + destruct rest as [|[e''|] rest']; simpl in Hhd; try discriminate.
      injection Hhd as ->.
      now rewrite (log_message_print_fault _ _ w1 e' rest' Hrest).
    + rewrite <- Hrest in Hhd.
      destruct (log_message_passes (error_message e) "ERROR" ERROR w1 Hhd
                  eq_refl) as [Hres Hlog].
      destruct (log_message (error_message e) "ERROR" w1) as [[[]|e'] w2];
        simpl in Hres, Hlog; [|discriminate].
      split; [reflexivity | exact Hlog].
Qed.

Lemma fetch_standards_success_log_raises_witness :
  fst (fetch_standards url
         (start IsDir [Some closed_stdout]
            (Responded (ok_response standards_body))))
  = Returned None
  /\ log_file (snd (fetch_standards url
                      (start IsDir [Some closed_stdout]
                         (Responded (ok_response standards_body)))))
     = [mk_record ERROR
          "Error fetching standards: I/O operation on closed file.. Ensure the URL is correct and public."].
Proof.
  destruct (fetch_standards_success_log_raises url
              (start IsDir [Some closed_stdout]
                 (Responded (ok_response standards_body)))
              (ok_response standards_body) closed_stdout [])
    as (_ & Hres & Hlog).
  - reflexivity.
  - simpl. lia.
  - reflexivity.
  - split; [exact Hres | exact Hlog].
Defined.

(** * Further properties of the script *)

(** ** Components a statement leaves alone *)

Section Frame.

Context {X : Type} (f : world -> X).

Hypothesis f_console : forall ev w, f (emit_console ev w) = f w.
Hypothesis f_record : forall r w, f (emit_record r w) = f w.
Hypothesis f_faults : forall l w, f (set_faults l w) = f w.

Lemma keeps_ret {A : Type} (a : A) : keeps f (ret a).
Proof. intros w. reflexivity. Qed.

Lemma keeps_raise {A : Type} (e : exn) : keeps f (@raise A e).
Proof. intros w. reflexivity. Qed.

Lemma keeps_bind {A B : Type} (m : M A) (k : A -> M B) :
  keeps f m -> (forall a, keeps f (k a)) -> keeps f (bind m k).
Proof.
  intros Hm Hk w. unfold bind.
  specialize (Hm w). destruct (m w) as [[a|e] w1]; simpl in Hm.
  - now rewrite Hk.
  - exact Hm.
Qed.

Lemma keeps_try {A : Type} (body : M A) (handler : exn -> M A) :
  keeps f body -> (forall e, keeps f (handler e)) ->
  keeps f (try_except body handler).
Proof.
  intros Hb Hh w. unfold try_except.
  specialize (Hb w). destruct (body w) as [[a|e] w1]; simpl in Hb.
  - exact Hb.
  - now rewrite Hh.
Qed.

Lemma keeps_print ev : keeps f (Py.print ev).
Proof.
  intros w. unfold Py.print.
  destruct (stdout_faults w) as [|[e|] rest]; simpl;
    now rewrite ?f_console, ?f_faults.
Qed.

Lemma keeps_call_attr name message : keeps f (logging.call_attr name message).
Proof.
  intros w. unfold logging.call_attr, logging.emit, raise.
  destruct (logging.severity_function name) as [l|]; [|reflexivity].
  destruct (logging.root_level <=? levelno l)%Z; simpl;
    now rewrite ?f_record.
Qed.

Lemma keeps_log_message message level : keeps f (log_message message level).
Proof.
  apply keeps_bind; [apply keeps_print|].
  intros _. apply keeps_call_attr.
Qed.

Lemma keeps_raise_for_status r : keeps f (requests.raise_for_status r).
Proof.
  unfold requests.raise_for_status.
  destruct (requests.http_error_msg r); [apply keeps_raise | apply keeps_ret].
Qed.

Lemma keeps_show_content content : keeps f (show_content content).
Proof.
  unfold show_content. destruct (Py.truthy content); [|apply keeps_ret].
  apply keeps_bind; [apply keeps_log_message|].
  intros _. apply keeps_print.
Qed.

End Frame.

(** ** Requests *)

(** What [fetch_standards] is once the network has spoken. *)
Lemma fetch_standards_after_get (u : string) (w : world) :
  fetch_standards u w
  = match network w u with
    | Responded r =>
        try_except
          (requests.raise_for_status r ;;
           log_message success_message "INFO" ;;
           ret (Some (text r)))
          (fun e => log_message (error_message e) "ERROR" ;; ret None)
          (note_request u w)
    | Failed e =>
        (log_message (error_message e) "ERROR" ;; ret None) (note_request u w)
    end.
Proof.
  unfold fetch_standards, try_except. unfold bind at 1. unfold requests.get.
  now destruct (network w u).
Qed.

Lemma keeps_requests_handler (e : exn) :
  keeps requests_sent
    (log_message (error_message e) "ERROR" ;; @ret (option string) None).
Proof.
  apply keeps_bind; [now apply keeps_log_message|].
  intros _. apply keeps_ret.
Qed.

Lemma fetch_standards_requests_sent (u : string) (w : world) :
  requests_sent (snd (fetch_standards u w)) = (requests_sent w ++ [u])%list.
Proof.
  rewrite fetch_standards_after_get.
  destruct (network w u) as [r|e].
  - change (requests_sent w ++ [u])%list
      with (requests_sent (note_request u w)).
    apply (keeps_try requests_sent); [|apply keeps_requests_handler].
    apply keeps_bind; [now apply keeps_raise_for_status|]. intros _.
    apply keeps_bind; [now apply keeps_log_message|]. intros _.
    apply keeps_ret.
  - apply (keeps_requests_handler e (note_request u w)).
Qed.

(** ** The two outcomes of a call of [log_message] *)

Lemma log_message_accepted (message level : string) (l : Level) (w : world) :
  hd None (stdout_faults w) = None ->
  logging.severity_function (Py.lower level) = Some l ->
  log_message message level w
  = (Returned tt, logged l message level (set_faults (tl (stdout_faults w)) w)).
Proof.
  intros Hhd Hl. destruct w as [le lf co sf net rs]. simpl in Hhd.
  unfold log_message, bind, Py.print. simpl stdout_faults.
  destruct sf as [|[e|] rest]; simpl in Hhd; try discriminate;
    unfold logging.call_attr; rewrite Hl; unfold logging.emit, logged;
    simpl; now destruct (logging.root_level <=? levelno l)%Z.
Qed.

Lemma log_message_outcomes (message level : string) (l : Level) (w : world) :
  logging.severity_function (Py.lower level) = Some l ->
  (exists e rest,
     stdout_faults w = Some e :: rest
     /\ log_message message level w = (Raised e, set_faults rest w))
  \/ (hd None (stdout_faults w) = None
      /\ log_message message level w
         = (Returned tt,
            logged l message level (set_faults (tl (stdout_faults w)) w))).
Proof.
  intros Hl. destruct (stdout_faults w) as [|[e|] rest] eqn:Hf.
  - right. split; [reflexivity|].
    rewrite <- Hf. apply log_message_accepted; trivial. now rewrite Hf.
  - left. exists e, rest. split; [reflexivity|].
    now apply log_message_print_fault.
  - right. split; [reflexivity|].
    change rest with (tl (None :: rest)). rewrite <- Hf.
    apply log_message_accepted; trivial. now rewrite Hf.
Qed.

(** ** What a run does to the site and the network *)

Lemma keeps_requests_after_fetch :
  forall content : option string,
    keeps requests_sent
      (show_content content ;; log_message "Script completed" "INFO").
Proof.
  intros content.
  apply keeps_bind; [now apply keeps_show_content|].
  intros _. now apply keeps_log_message.
Qed.

(** X2: a run of the script calls [requests.get] exactly once, with the
    fixed URL, when it gets as far as the fetch, that is when [logs] is a
    directory at start and the "Script started" line is accepted by
    standard output; in every other case it never calls it. *)
Theorem script_requests (w : world) :
  requests_sent (snd (script w))
  = match logs_entry w, hd None (stdout_faults w) with
    | IsDir, None => (requests_sent w ++ [url])%list
    | _, _ => requests_sent w
    end.
Proof.
  unfold script. unfold bind at 1. unfold logging.basicConfig.
  destruct (logs_entry w) eqn:Hdir; try reflexivity.
  unfold main. unfold bind at 1. rewrite (makedirs_present w Hdir).
  unfold bind at 1.
  destruct (log_message_outcomes "Script started" "INFO" INFO w eq_refl)
    as [(e & rest & Hf & ->)|(Hhd & ->)].
  - now rewrite Hf.
  - rewrite Hhd. unfold bind at 1.
    set (w1 := logged INFO "Script started" "INFO" _).
    pose proof (fetch_standards_requests_sent url w1) as Hreq.
    destruct (fetch_standards url w1) as [[content|e] w2]; simpl in Hreq.
    + now rewrite keeps_requests_after_fetch.
    + exact Hreq.
Qed.

(** X3: a run of the script never changes what [logs] is.  Where the
    directory is missing the run stops at the import-time configuration,
    so [os.makedirs] is only ever reached with the directory in place. *)
Theorem script_never_creates_logs (w : world) :
  logs_entry (snd (script w)) = logs_entry w.
Proof.
  destruct (logs_entry w) eqn:Hdir.
  - unfold script, bind, logging.basicConfig. now rewrite Hdir.
  - now apply script_logs_entry.
  - unfold script, bind, logging.basicConfig. now rewrite Hdir.
Qed.



(** ** Every way a call of [fetch_standards] can end *)

Lemma http_error_msg_none_iff (r : Response) :
  requests.http_error_msg r = None
  <-> (status_code r < 400 \/ 600 <= status_code r)%Z.
Proof.
  unfold requests.http_error_msg.
  destruct (Z.leb_spec 400 (status_code r));
    destruct (Z.ltb_spec (status_code r) 500);
    destruct (Z.leb_spec 500 (status_code r));
    destruct (Z.ltb_spec (status_code r) 600);
    simpl; split; intros H'; try discriminate; try reflexivity; lia.
Qed.

Lemma handler_outcomes (e : exn) (w : world) :
  (exists e' rest,
     stdout_faults w = Some e' :: rest
     /\ (log_message (error_message e) "ERROR" ;; @ret (option string) None) w
        = (Raised e', set_faults rest w))
  \/ (hd None (stdout_faults w) = None
      /\ (log_message (error_message e) "ERROR" ;; @ret (option string) None) w
         = (Returned None,
            logged ERROR (error_message e) "ERROR"
              (set_faults (tl (stdout_faults w)) w))).
Proof.
  unfold bind.
  destruct (log_message_outcomes (error_message e) "ERROR" ERROR w eq_refl)
    as [(e' & rest & Hf & ->)|(Hhd & ->)].
  - left. now exists e', rest.
  - right. now split.
Qed.

Lemma try_body_error_status (r : Response) (msg : string) (w : world) :
  requests.http_error_msg r = Some msg ->
  (requests.raise_for_status r ;;
   log_message success_message "INFO" ;;
   ret (Some (text r))) w
  = (Raised (mk_exn "HTTPError" msg), w).
Proof.
  intros Hmsg. unfold bind, requests.raise_for_status. now rewrite Hmsg.
Qed.

Lemma try_body_good_status (r : Response) (w : world) :
  requests.http_error_msg r = None ->
  (requests.raise_for_status r ;;
   log_message success_message "INFO" ;;
   ret (Some (text r))) w
  = (log_message success_message "INFO" ;; ret (Some (text r))) w.
Proof.
  intros Hmsg. unfold bind at 1. unfold requests.raise_for_status.
  now rewrite Hmsg.
Qed.

Lemma success_outcomes (r : Response) (w : world) :
  (exists e rest,
     stdout_faults w = Some e :: rest
     /\ (log_message success_message "INFO" ;; ret (Some (text r))) w
        = (Raised e, set_faults rest w))
  \/ (hd None (stdout_faults w) = None
      /\ (log_message success_message "INFO" ;; ret (Some (text r))) w
         = (Returned (Some (text r)),
            logged INFO success_message "INFO"
              (set_faults (tl (stdout_faults w)) w))).
Proof.
  unfold bind.
  destruct (log_message_outcomes success_message "INFO" INFO w eq_refl)
    as [(e & rest & Hf & ->)|(Hhd & ->)].
  - left. now exists e, rest.
  - right. now split.
Qed.

Lemma fetch_standards_ending (u : string) (w : world) :
  exists recs,
    fetch_ending u w (fst (fetch_standards u w)) recs
    /\ log_file (snd (fetch_standards u w)) = (log_file w ++ recs)%list.
Proof.
  rewrite fetch_standards_after_get.
  destruct (network w u) as [r|e0] eqn:Hnet.
  - unfold try_except.
    destruct (requests.http_error_msg r) as [msg|] eqn:Hmsg.
    + rewrite (try_body_error_status r msg _ Hmsg).
      destruct (handler_outcomes (mk_exn "HTTPError" msg) (note_request u w))
        as [(e' & rest & Hf & ->)|(Hhd & ->)].
      * exists []. split; [|symmetry; apply app_nil_r].
        apply ends_raising. simpl in Hf. rewrite Hf. now left.
      * eexists. split; [|reflexivity].
        apply ends_absent_request; trivial.
        now apply (status_raises _ _ r).
    + rewrite (try_body_good_status r _ Hmsg).
      destruct (success_outcomes r (note_request u w))
        as [(e & rest & Hf & ->)|(Hhd & ->)].
      * destruct (handler_outcomes e (set_faults rest (note_request u w)))
          as [(e' & rest' & Hf' & ->)|(Hhd' & ->)].
        -- exists []. split; [|symmetry; apply app_nil_r].
           apply ends_raising. simpl in Hf, Hf'. rewrite Hf, Hf'.
           right. now left.
        -- eexists. split; [|reflexivity].
           now apply (ends_absent_logging _ _ r e rest).
      * eexists. split; [|reflexivity].
        now apply ends_with_body.
  - destruct (handler_outcomes e0 (note_request u w))
      as [(e' & rest & Hf & ->)|(Hhd & ->)].
    + exists []. split; [|symmetry; apply app_nil_r].
      apply ends_raising. simpl in Hf. rewrite Hf. now left.
    + eexists. split; [|reflexivity].
      apply ends_absent_request; trivial. now apply get_raises.
Qed.

(** X6: a body returned by [fetch_standards] is the text of the response
    the network gave for that URL, and the status of that response is
    neither 4xx nor 5xx; this holds whichever writes are refused. *)
Theorem fetch_standards_body_sound (u : string) (w : world) (b : string) :
  fst (fetch_standards u w) = Returned (Some b) ->
  exists r : Response,
    network w u = Responded r
    /\ text r = b
    /\ (status_code r < 400 \/ 600 <= status_code r)%Z.
Proof.
  intros Hres.
  destruct (fetch_standards_ending u w) as (recs & Hend & _).
  rewrite Hres in Hend. inversion Hend as [r Hnet Hst Hhd Hb Hrecs| | |].
  exists r. split; [exact Hnet|]. split; [reflexivity|].
  now apply http_error_msg_none_iff.
Qed.

Lemma fetch_standards_body_sound_witness :
  exists r : Response,
    network (start IsDir [] (Responded (ok_response standards_body))) url
    = Responded r
    /\ text r = standards_body
    /\ (status_code r < 400 \/ 600 <= status_code r)%Z.
Proof.
  apply (fetch_standards_body_sound url
           (start IsDir [] (Responded (ok_response standards_body)))
           standards_body).
  reflexivity.
Defined.

(** X7: no exception of the request leaves [fetch_standards].  When a
    call raises, the exception is that of a refused write to standard
    output (the handler printing its error line). *)
Theorem fetch_standards_raises_only_refused_write
    (u : string) (w : world) (e : exn) :
  fst (fetch_standards u w) = Raised e ->
  In (Some e) (stdout_faults w) /\ ~ healthy w.
Proof.
  intros Hres.
  destruct (fetch_standards_ending u w) as (recs & Hend & _).
  rewrite Hres in Hend. inversion Hend as [| | |e' Hin He Hrecs].
  split; [exact Hin|].
  unfold healthy. intros Hnil. now rewrite Hnil in Hin.
Qed.

Lemma fetch_standards_raises_only_refused_write_witness :
  In (Some closed_stdout)
     (stdout_faults (start IsDir [Some closed_stdout] (Failed dns_failure))).
Proof.
  apply (fetch_standards_raises_only_refused_write url
           (start IsDir [Some closed_stdout] (Failed dns_failure))
           closed_stdout).
  reflexivity.
Defined.



(** ** Whole runs *)

(** X9: the run whose request raises, on a working standard output with
    [logs] in place: it completes, and the script prints exactly three
    lines, "Script started" in green, the error message with the hint in
    red and "Script completed" in green, and no plain text. *)
Theorem script_run_request_failed (w : world) (e : exn) :
  logs_entry w = IsDir ->
  healthy w ->
  request_raises w url e ->
  fst (script w) = Returned tt
  /\ console (snd (script w))
     = (console w
        ++ [ColorLine Fore.GREEN "Script started";
            ColorLine Fore.RED
              ("Error fetching standards: " ++ exn_str e
               ++ ". Ensure the URL is correct and public.");
            ColorLine Fore.GREEN "Script completed"])%list.
Proof.
  intros Hdir Hw He.
  rewrite (script_not_fetched w e Hw Hdir He). simpl.
  rewrite <- !app_assoc. now split.
Qed.

Lemma script_run_request_failed_witness :
  console (snd (script (start IsDir [] (Failed dns_failure))))
  = [ColorLine Fore.GREEN "Script started";
     ColorLine Fore.RED
       "Error fetching standards: Failed to resolve 'raw.githubusercontent.com'. Ensure the URL is correct and public.";
     ColorLine Fore.GREEN "Script completed"].
Proof.
  destruct (script_run_request_failed (start IsDir [] (Failed dns_failure))
              dns_failure)
    as (_ & Hcon).
  - reflexivity.
  - reflexivity.
  - apply get_raises. reflexivity.
  - exact Hcon.
Defined.



(** ** The order of the two effects of [log_message] *)


